(** * Data Quality AI Suite: the prompt composer and the rule fetcher

    A shallow embedding of [src/App.tsx].  The React component keeps ten
    pieces of state ([useState]); its handlers [handleCreatePrompt],
    [handleGenerateRules] and [handleBack] become functions on a record of
    those ten values ([copyToClipboard] touches none of them), the
    rendered controls become an event dispatcher that honours the
    [disabled] attributes passed to [src/Button.tsx], and the single
    [await] of [handleGenerateRules] splits that handler in the part
    before and the part after it. *)

From Stdlib Require Import String Ascii List Bool Arith Lia.
Import ListNotations.
Open Scope string_scope.
Set Warnings "-register-all".

(** ** JavaScript strings *)

Module JSString.

(** [!s] on a string: only the empty string is falsy. *)
Definition falsy (s : string) : bool :=
  match s with
  | EmptyString => true
  | String _ _ => false
  end.

(** [t.startsWith(s)] *)
Fixpoint startsWith (s t : string) : bool :=
  match s, t with
  | EmptyString, _ => true
  | String a s', String b t' => Ascii.eqb a b && startsWith s' t'
  | String _ _, EmptyString => false
  end.

(** [t.includes(s)] *)
Fixpoint includes (s t : string) : bool :=
  startsWith s t ||
  match t with
  | EmptyString => false
  | String _ t' => includes s t'
  end.

(** [s] occurs verbatim in [t]. *)
Definition Contains (s t : string) : Prop :=
  exists pre post, t = pre ++ s ++ post.

(** Every way of cutting [s] in two, left to right. *)
Fixpoint splits (s : string) : list (string * string) :=
  (EmptyString, s) ::
  match s with
  | EmptyString => []
  | String c s' => map (fun p => (String c (fst p), snd p)) (splits s')
  end.

(** [t.endsWith(s)] *)
Definition endsWith (s t : string) : bool :=
  existsb (fun p => String.eqb (snd p) s) (splits t).

(** One of the two strings starts with the other. *)
Definition compatible (s t : string) : bool :=
  startsWith s t || startsWith t s.

(** No occurrence of [s] in [l ++ rest] can begin inside [l]: [s] is not
    inside [l], and no proper beginning of [s] ends [l]. *)
Definition cannotBeginIn (s l : string) : bool :=
  negb (includes s l) &&
  forallb (fun p => falsy (fst p) || falsy (snd p) || negb (endsWith (fst p) l))
          (splits s).

(** No occurrence of [s] that begins before [l ++ rest] can run into it:
    no proper ending of [s] agrees with the beginning of [l]. *)
Definition cannotRunInto (s l : string) : bool :=
  forallb (fun p => falsy (fst p) || falsy (snd p) || negb (compatible (snd p) l))
          (splits s).

(** The double quote character. *)
Definition dquote : ascii := ascii_of_nat 34.

End JSString.
Import JSString.

(** ** Values returned by [JSON.parse] *)

Inductive JSValue : Type :=
| JNull
| JBool (b : bool)
| JNumber (literal : string)
| JString (s : string)
| JArray (items : list JSValue)
| JObject (fields : list (string * JSValue)).

(** The [responseSchema] language of the generation request. *)
Inductive Schema : Type :=
| TypeSTRING (enum : option (list string)) (description : option string)
| TypeARRAY (items : Schema)
| TypeOBJECT (properties : list (string * Schema)) (required : list string).

Fixpoint property (k : string) (fields : list (string * JSValue)) : option JSValue :=
  match fields with
  | [] => None
  | (k', v) :: rest => if String.eqb k' k then Some v else property k rest
  end.

(** [v] has the shape the schema [s] asks for. *)
Fixpoint conforms (s : Schema) (v : JSValue) : bool :=
  match s, v with
  | TypeSTRING None _, JString _ => true
  | TypeSTRING (Some values) _, JString x => existsb (String.eqb x) values
  | TypeARRAY it, JArray l => forallb (conforms it) l
  | TypeOBJECT props req, JObject fields =>
      forallb (fun r => match property r fields with Some _ => true | None => false end) req
      && forallb (fun p => match property (fst p) fields with
                           | Some x => conforms (snd p) x
                           | None => true
                           end) props
  | _, _ => false
  end.

(** ** The component state: the ten [useState] cells of [App] *)

Inductive Page : Type := config | results.

Record State : Type := mkState {
  page : Page;
  application : string;
  operation : string;
  domain : string;
  department : string;
  generatedPrompt : string;
  formError : option string;
  apiError : option string;
  isLoading : bool;
  rules : JSValue
}.

Definition initialState : State :=
  mkState config EmptyString EmptyString EmptyString EmptyString EmptyString
          None None false (JArray []).

Definition setPage (v : Page) (st : State) : State :=
  mkState v (application st) (operation st) (domain st) (department st)
          (generatedPrompt st) (formError st) (apiError st) (isLoading st) (rules st).
Definition setApplication (v : string) (st : State) : State :=
  mkState (page st) v (operation st) (domain st) (department st)
          (generatedPrompt st) (formError st) (apiError st) (isLoading st) (rules st).
Definition setOperation (v : string) (st : State) : State :=
  mkState (page st) (application st) v (domain st) (department st)
          (generatedPrompt st) (formError st) (apiError st) (isLoading st) (rules st).
Definition setDomain (v : string) (st : State) : State :=
  mkState (page st) (application st) (operation st) v (department st)
          (generatedPrompt st) (formError st) (apiError st) (isLoading st) (rules st).
Definition setDepartment (v : string) (st : State) : State :=
  mkState (page st) (application st) (operation st) (domain st) v
          (generatedPrompt st) (formError st) (apiError st) (isLoading st) (rules st).
Definition setGeneratedPrompt (v : string) (st : State) : State :=
  mkState (page st) (application st) (operation st) (domain st) (department st)
          v (formError st) (apiError st) (isLoading st) (rules st).
Definition setFormError (v : option string) (st : State) : State :=
  mkState (page st) (application st) (operation st) (domain st) (department st)
          (generatedPrompt st) v (apiError st) (isLoading st) (rules st).
Definition setApiError (v : option string) (st : State) : State :=
  mkState (page st) (application st) (operation st) (domain st) (department st)
          (generatedPrompt st) (formError st) v (isLoading st) (rules st).
Definition setIsLoading (v : bool) (st : State) : State :=
  mkState (page st) (application st) (operation st) (domain st) (department st)
          (generatedPrompt st) (formError st) (apiError st) v (rules st).
Definition setRules (v : JSValue) (st : State) : State :=
  mkState (page st) (application st) (operation st) (domain st) (department st)
          (generatedPrompt st) (formError st) (apiError st) (isLoading st) v.

(** ** [handleCreatePrompt] *)

Definition isFormIncomplete (st : State) : bool :=
  falsy (application st) || falsy (operation st) || falsy (domain st) || falsy (department st).

Definition formErrorMessage : string :=
  "Please select a value for all dropdowns to create a prompt.".

Definition commonContext (domain department application : string) : string :=
  "for the critical data elements like First Name, LastName, Middle Name, and CustomerID for the "
  ++ domain ++ " domain in the " ++ department
  ++ " department, within the context of the " ++ application ++ " application.".

Definition datasetContext : string :=
  "Additionally, include the context of how these elements relate to a provided dataset.".

(** The [switch (operation)] of lines 39-54; [case] labels compare with
    [===]. *)
Definition switchOperation (operation commonContext datasetContext : string) : string :=
  if String.eqb operation "Business_Rules" then
    "I want to create Business data quality rules " ++ commonContext ++ " " ++ datasetContext
  else if String.eqb operation "Technical_Rules" then
    "I want to create technical data quality rules (e.g., SQL queries, Python scripts) "
    ++ commonContext ++ " " ++ datasetContext
  else if String.eqb operation "Estimations" then
    "I want to get estimations (e.g., effort in hours, complexity) for implementing data quality rules "
    ++ commonContext
  else if String.eqb operation "Schema" then
    "I want to generate a data schema definition (e.g., JSON Schema, SQL DDL) " ++ commonContext
  else
    "Generate data quality information regarding " ++ operation ++ " "
    ++ commonContext ++ " " ++ datasetContext.

(** The text [prompt] holds when line 55 is reached. *)
Definition composePrompt (st : State) : string :=
  switchOperation (operation st)
                  (commonContext (domain st) (department st) (application st))
                  datasetContext.

Definition handleCreatePrompt (st : State) : State :=
  if isFormIncomplete st then
    setFormError (Some formErrorMessage) st
  else
    let st := setFormError None st in
    let prompt := composePrompt st in
    let st := setGeneratedPrompt prompt st in
    let st := setPage results st in
    let st := setRules (JArray []) st in
    setApiError None st.

(** ** [handleBack] *)

Definition handleBack (st : State) : State :=
  setFormError None (setPage config st).

(** ** [handleGenerateRules] *)

Record GenerateContentParameters : Type := mkRequest {
  model : string;
  contents : string;
  responseMimeType : string;
  responseSchema : Schema
}.

(** Lines 74-86. *)
Definition rulesSchema : Schema :=
  TypeARRAY
    (TypeOBJECT
       [ ("ruleName", TypeSTRING None None);
         ("description", TypeSTRING None None);
         ("ruleType", TypeSTRING (Some ["Business"; "Technical"]) None);
         ("codeSnippet",
          TypeSTRING None
            (Some "Required for Technical rules. Provide a SQL or Python code snippet.")) ]
       [ "ruleName"; "description"; "ruleType" ]).

(** Lines 69-88: the argument of [ai.models.generateContent]. *)
Definition generateContentRequest (generatedPrompt : string) : GenerateContentParameters :=
  mkRequest
    "gemini-2.5-pro"
    ("Based on the following context: " ++ String dquote generatedPrompt
     ++ String dquote ", generate a list of data quality rules.")
    "application/json"
    rulesSchema.

Definition apiErrorMessage : string :=
  "Failed to generate rules. The model may have returned an unexpected format. Please try refining your prompt.".

(** How the [try] block of lines 66-92 ends.  The generation service and
    [JSON.parse] are outside the component, so what they do is an input:
    the block throws before line 90 (the client constructor throws, the
    call rejects), line 90 throws ([response.text] is not JSON), or line 90
    returns a value, which line 91 stores unexamined. *)
Inductive TryOutcome : Type :=
| BoundaryThrew
| ParseThrew
| Parsed (parsedRules : JSValue).

(** Lines 62-64 and the call of line 69, up to the [await]: the new state
    and the request handed to the service. *)
Definition handleGenerateRules_call (st : State) : State * GenerateContentParameters :=
  let request := generateContentRequest (generatedPrompt st) in
  let st := setIsLoading true st in
  let st := setApiError None st in
  let st := setRules (JArray []) st in
  (st, request).

(** Lines 90-98, run when the awaited call settles, on the state of that
    moment (each setter replaces one cell). *)
Definition handleGenerateRules_resume (o : TryOutcome) (st : State) : State :=
  let st :=
    match o with
    | Parsed parsedRules => setRules parsedRules st
    | BoundaryThrew | ParseThrew => setApiError (Some apiErrorMessage) st
    end in
  setIsLoading false st.

(** The [try] block threw: the [catch] clause runs. *)
Definition threw (o : TryOutcome) : bool :=
  match o with
  | BoundaryThrew | ParseThrew => true
  | Parsed _ => false
  end.

(** The fetch failed in the sense of the specification: a fault, text
    that is not JSON, or JSON that is not a list of rules. *)
Definition fetchFailed (o : TryOutcome) : bool :=
  match o with
  | BoundaryThrew | ParseThrew => true
  | Parsed v => negb (conforms rulesSchema v)
  end.

(** ** The rendered controls *)

(** [src/Button.tsx]: the [disabled] prop goes to the native button, and
    a disabled button delivers no click. *)
Definition Button {A : Type} (onClick : A -> A) (disabled : bool) (a : A) : A :=
  if disabled then a else onClick a.

(** Line 162. *)
Definition createPromptDisabled (st : State) : bool := isFormIncomplete st.

(** Line 203. *)
Definition generateRulesDisabled (st : State) : bool :=
  isLoading st || falsy (generatedPrompt st).

(** The component together with the generation service: the calls that
    are awaited, oldest first, and every request the service has seen. *)
Record App : Type := mkApp {
  state : State;
  pending : list GenerateContentParameters;
  observed : list GenerateContentParameters
}.

Definition initialApp : App := mkApp initialState [] [].

Definition onState (f : State -> State) (a : App) : App :=
  mkApp (f (state a)) (pending a) (observed a).

Definition handleGenerateRules (a : App) : App :=
  let (st, request) := handleGenerateRules_call (state a) in
  mkApp st (pending a ++ [request]) (observed a ++ [request]).

Definition settle (o : TryOutcome) (a : App) : App :=
  match pending a with
  | [] => a
  | _ :: rest => mkApp (handleGenerateRules_resume o (state a)) rest (observed a)
  end.

Inductive Event : Type :=
| ChangeApplication (value : string)
| ChangeOperation (value : string)
| ChangeDomain (value : string)
| ChangeDepartment (value : string)
| ClickCreatePrompt
| ClickBack
| ChangePrompt (value : string)
| ClickGenerateRules
| Settle (o : TryOutcome).

(** Line 277 renders one page; only its controls can fire.  The option
    lists of the four dropdowns come from [./constants]; an event may
    carry any of their values. *)
Definition dispatch (e : Event) (a : App) : App :=
  match e, page (state a) with
  | ChangeApplication v, config => onState (setApplication v) a
  | ChangeOperation v, config => onState (setOperation v) a
  | ChangeDomain v, config => onState (setDomain v) a
  | ChangeDepartment v, config => onState (setDepartment v) a
  | ClickCreatePrompt, config =>
      Button (onState handleCreatePrompt) (createPromptDisabled (state a)) a
  | ClickBack, results => onState handleBack a
  | ChangePrompt v, results => onState (setGeneratedPrompt v) a
  | ClickGenerateRules, results =>
      Button handleGenerateRules (generateRulesDisabled (state a)) a
  | Settle o, _ => settle o a
  | _, _ => a
  end.

Fixpoint run (es : list Event) (a : App) : App :=
  match es with
  | [] => a
  | e :: es' => run es' (dispatch e a)
  end.

Definition Reachable (a : App) : Prop := exists es, a = run es initialApp.

(** The known operations of the [switch]. *)
Definition knownOperation (op : string) : bool :=
  String.eqb op "Business_Rules" || String.eqb op "Technical_Rules"
  || String.eqb op "Estimations" || String.eqb op "Schema".

(** ** Sample data *)

Definition selection (application operation domain department : string) : State :=
  mkState config application operation domain department EmptyString
          None None false (JArray []).

Definition exampleSelection : State := selection "Billing" "Estimations" "Finance" "Risk".

(** A selection whose domain value is the text of the dataset clause. *)
Definition clauseSelection : State := selection "Billing" "Estimations" datasetContext "Risk".

(** A selection without an application. *)
Definition partialSelection : State :=
  selection EmptyString "Schema" "Finance" "Risk".

(** [[{ruleName:"R1",description:"D1",ruleType:"Business"}]] *)
Definition exampleRules : JSValue :=
  JArray [ JObject [ ("ruleName", JString "R1"); ("description", JString "D1");
                     ("ruleType", JString "Business") ] ].

(** [[{ruleName:"R1"}]]: JSON, but not a list of rules. *)
Definition shapelessRules : JSValue :=
  JArray [ JObject [ ("ruleName", JString "R1") ] ].

(** The user fills the form, composes the prompt and starts a fetch. *)
Definition exampleSession : list Event :=
  [ ChangeApplication "Billing"; ChangeOperation "Business_Rules";
    ChangeDomain "Finance"; ChangeDepartment "Risk";
    ClickCreatePrompt; ClickGenerateRules ].

(** The component while the fetch of [exampleSession] is awaited. *)
Definition fetchingApp : App := run exampleSession initialApp.

(** The fetch of [exampleSession] has returned [exampleRules]. *)
Definition reviewedApp : App := dispatch (Settle (Parsed exampleRules)) fetchingApp.



(** ** The invariant of the fetch *)

(** What holds of the component and the service together, in every
    reachable state: either nothing is awaited and the loading flag is
    down, or exactly one call is awaited, the flag is up and the rule list
    is empty. *)
Definition Settled (a : App) : Prop :=
  pending a = [] /\ isLoading (state a) = false.

Definition Fetching (a : App) : Prop :=
  (exists request, pending a = [request])
  /\ isLoading (state a) = true /\ rules (state a) = JArray [].

Definition Invariant (a : App) : Prop := Settled a \/ Fetching a.

(** ** [copyToClipboard] *)

(** The calls the component makes on the browser. *)
Inductive Effect : Type :=
| WriteText (text : string)
| Alert (message : string).

(** Lines 101-106; [type] names what is copied. *)
Definition copyToClipboard (text type : string) : list Effect :=
  if falsy text then []
  else [ WriteText text; Alert (type ++ " copied to clipboard!") ].

(** The copy button of the prompt, line 194. *)
Definition clickCopyPrompt (st : State) : list Effect :=
  copyToClipboard (generatedPrompt st) "Prompt".

(** ** The rules table *)

(** The [Rule] interface of lines 8-13. *)
Inductive RuleType : Type := Business | Technical.

Record Rule : Type := mkRule {
  ruleName : string;
  description : string;
  ruleType : RuleType;
  codeSnippet : option string
}.


(** A parsed value read at the type [Rule[]], the type line 25 gives the
    [rules] cell: an array of objects with string properties [ruleName]
    and [description], a [ruleType] that is one of the two literals, and a
    [codeSnippet] that is absent or a string. *)
Definition asString (v : option JSValue) : option string :=
  match v with
  | Some (JString s) => Some s
  | _ => None
  end.

Definition asRuleType (v : option JSValue) : option RuleType :=
  match asString v with
  | Some t =>
      if String.eqb t "Business" then Some Business
      else if String.eqb t "Technical" then Some Technical
      else None
  | None => None
  end.

Definition asRule (v : JSValue) : option Rule :=
  match v with
  | JObject fields =>
      match asString (property "ruleName" fields),
            asString (property "description" fields),
            asRuleType (property "ruleType" fields) with
      | Some name, Some text, Some type =>
          match property "codeSnippet" fields with
          | None => Some (mkRule name text type None)
          | Some (JString code) => Some (mkRule name text type (Some code))
          | Some _ => None
          end
      | _, _, _ => None
      end
  | _ => None
  end.

Fixpoint asRuleList (items : list JSValue) : option (list Rule) :=
  match items with
  | [] => Some []
  | v :: rest =>
      match asRule v, asRuleList rest with
      | Some rule, Some rules => Some (rule :: rules)
      | _, _ => None
      end
  end.

Definition asRules (v : JSValue) : option (list Rule) :=
  match v with
  | JArray items => asRuleList items
  | _ => None
  end.





(** ** [src/Dropdown.tsx] *)

Record OptionElement : Type := mkOption {
  optionValue : string;
  optionDisabled : bool;
  optionText : string
}.

Record DropdownElement : Type := mkDropdown {
  labelText : string;
  selectId : string;
  selectValue : string;
  selectOptions : list OptionElement
}.

(** Lines 12-35: the placeholder option, then one option per entry. *)
Definition Dropdown (label value : string) (options : list string) (placeholder : string)
  : DropdownElement :=
  mkDropdown label label value
    (mkOption EmptyString true placeholder
     :: map (fun option => mkOption option false option) options).

(** The values a change event of the select can carry: a disabled option
    cannot be chosen. *)
Definition selectableValues (d : DropdownElement) : list string :=
  map optionValue (filter (fun o => negb (optionDisabled o)) (selectOptions d)).

(** The four dropdowns of lines 126-153.  The option lists are the
    constants of [./constants], which are parameters here. *)
Definition Deliverable (APPLICATIONS OPERATIONS DOMAINS DEPARTMENTS : list string)
           (a : App) (e : Event) : Prop :=
  match e with
  | ChangeApplication v =>
      In v (selectableValues
              (Dropdown "Application" (application (state a)) APPLICATIONS
                        "Select an Application"))
  | ChangeOperation v =>
      In v (selectableValues
              (Dropdown "Operation" (operation (state a)) OPERATIONS "Select an Operation"))
  | ChangeDomain v =>
      In v (selectableValues
              (Dropdown "Domain" (domain (state a)) DOMAINS "Select a Domain"))
  | ChangeDepartment v =>
      In v (selectableValues
              (Dropdown "Department" (department (state a)) DEPARTMENTS
                        "Select a Department"))
  | _ => True
  end.

(** Every event of the run is one the rendered dropdowns can deliver. *)
Fixpoint DeliverableRun (APPLICATIONS OPERATIONS DOMAINS DEPARTMENTS : list string)
         (es : list Event) (a : App) : Prop :=
  match es with
  | [] => True
  | e :: es' =>
      Deliverable APPLICATIONS OPERATIONS DOMAINS DEPARTMENTS a e
      /\ DeliverableRun APPLICATIONS OPERATIONS DOMAINS DEPARTMENTS es' (dispatch e a)
  end.

(** ** More about the fetch *)

Definition isSettle (e : Event) : bool :=
  match e with
  | Settle _ => true
  | _ => false
  end.

(** A request the fetch button can send: the wrapping of a prompt that is
    not empty. *)
Definition SentForPrompt (request : GenerateContentParameters) : Prop :=
  exists prompt, falsy prompt = false /\ request = generateContentRequest prompt.

(** What every reachable state satisfies besides [Invariant]. *)
Definition Consistent (a : App) : Prop :=
  formError (state a) = None
  /\ (page (state a) = results -> isFormIncomplete (state a) = false)
  /\ (apiError (state a) = None
      \/ (apiError (state a) = Some apiErrorMessage
          /\ rules (state a) = JArray [] /\ isLoading (state a) = false))
  /\ Forall SentForPrompt (observed a).

(** Sample option lists and rules. *)
Definition sampleOptions : list string := [ "Billing"; "Finance" ].


Definition businessRule : Rule := mkRule "R1" "D1" Business None.

(** * Facts about strings *)

Section StringFacts.

Lemma append_empty_r (s : string) : s ++ EmptyString = s.
Proof. induction s as [|c s IH]; simpl; [reflexivity | now rewrite IH]. Qed.

Lemma append_assoc (a b c : string) : (a ++ b) ++ c = a ++ (b ++ c).
Proof. induction a as [|x a IH]; simpl; [reflexivity | now rewrite IH]. Qed.

(** Two ways of cutting one string: one cut lies left of the other. *)
Lemma append_eq_append (a b c d : string) :
  a ++ b = c ++ d ->
  exists m, (a = c ++ m /\ d = m ++ b) \/ (c = a ++ m /\ b = m ++ d).
Proof.
  revert c. induction a as [|x a IH]; intros c H.
  - exists c. right. split; [reflexivity | exact H].
  - destruct c as [|y c].
    + exists (String x a). left. split; [reflexivity | symmetry; exact H].
    + simpl in H. injection H as Hxy Hrest. subst y.
      destruct (IH c Hrest) as [m [[Ha Hd] | [Hc Hb]]]; exists m.
      * left. split; [simpl; now rewrite <- Ha | exact Hd].
      * right. split; [simpl; now rewrite <- Hc | exact Hb].
Qed.

Lemma startsWith_true (s t : string) :
  startsWith s t = true <-> exists post, t = s ++ post.
Proof.
  revert t. induction s as [|a s IH]; intros t; simpl.
  - split; [intros _; now exists t | reflexivity].
  - destruct t as [|b t].
    + split; [discriminate | intros [post H]; discriminate].
    + rewrite andb_true_iff, Ascii.eqb_eq, IH. split.
      * intros [-> [post ->]]. now exists post.
      * intros [post H]. injection H as -> ->. split; [reflexivity | now exists post].
Qed.

Lemma includes_unfold (s t : string) :
  includes s t =
  startsWith s t || match t with EmptyString => false | String _ t' => includes s t' end.
Proof. destruct t; reflexivity. Qed.

Lemma includes_true (s t : string) : includes s t = true <-> Contains s t.
Proof.
  split.
  - induction t as [|c t IH]; rewrite includes_unfold, orb_true_iff.
    + intros [H | H]; [|discriminate].
      apply startsWith_true in H as [post ->]. now exists EmptyString, post.
    + intros [H | H].
      * apply startsWith_true in H as [post ->]. now exists EmptyString, post.
      * destruct (IH H) as [pre [post ->]]. now exists (String c pre), post.
  - intros [pre [post ->]]. induction pre as [|c pre IH].
    + rewrite includes_unfold. apply orb_true_iff. left.
      apply startsWith_true. now exists post.
    + simpl (String c pre ++ _). rewrite includes_unfold, IH. apply orb_true_r.
Qed.

Lemma includes_false (s t : string) : includes s t = false <-> ~ Contains s t.
Proof.
  rewrite <- includes_true. split.
  - intros H C. rewrite H in C. discriminate.
  - intros H. destruct (includes s t); [elim H; reflexivity | reflexivity].
Qed.

Lemma Contains_append_l (s p t : string) : Contains s t -> Contains s (p ++ t).
Proof.
  intros [pre [post ->]]. exists (p ++ pre), post. now rewrite append_assoc.
Qed.

Lemma Contains_end (pre s : string) : Contains s (pre ++ s).
Proof. exists pre, EmptyString. now rewrite append_empty_r. Qed.

Lemma splits_In (x y : string) : In (x, y) (splits (x ++ y)).
Proof.
  induction x as [|c x IH]; simpl.
  - destruct y; left; reflexivity.
  - right. apply (in_map (fun p => (String c (fst p), snd p)) _ _ IH).
Qed.

Lemma endsWith_true (pre x : string) : endsWith x (pre ++ x) = true.
Proof.
  apply existsb_exists. exists (pre, x). split; [apply splits_In | apply String.eqb_refl].
Qed.

Lemma compatible_true (y l rest post : string) :
  l ++ rest = y ++ post -> compatible y l = true.
Proof.
  intros H. apply orb_true_iff.
  destruct (append_eq_append _ _ _ _ H) as [m [[Hl _] | [Hy _]]].
  - left. apply startsWith_true. now exists m.
  - right. apply startsWith_true. now exists m.
Qed.

Lemma falsy_false (s : string) : falsy s = false <-> s <> EmptyString.
Proof. destruct s; simpl; split; congruence. Qed.

(** An occurrence of [s] in [a ++ b] lies in [a], lies in [b], or runs
    over the seam. *)
Lemma Contains_append_inv (s a b : string) :
  Contains s (a ++ b) ->
  Contains s a \/ Contains s b \/
  exists x y pre post,
    s = x ++ y /\ x <> EmptyString /\ y <> EmptyString /\ a = pre ++ x /\ b = y ++ post.
Proof.
  intros [pre [post H]].
  destruct (append_eq_append _ _ _ _ H) as [m [[Ha Hsp] | [Hpre Hb]]].
  - destruct (append_eq_append _ _ _ _ Hsp) as [m' [[Hs Hb] | [Hm Hpost]]].
    + destruct m as [|c m].
      * right. left. exists EmptyString, post. simpl in Hs. now rewrite Hs.
      * destruct m' as [|c' m'].
        -- left. rewrite append_empty_r in Hs. subst s. subst a. apply Contains_end.
        -- right. right. exists (String c m), (String c' m'), pre, post.
           repeat split; try assumption; discriminate.
    + left. exists pre, m'. now rewrite <- Hm.
  - right. left. exists m, post. exact Hb.
Qed.

(** Past a piece of fixed text in which [s] cannot begin. *)
Lemma not_Contains_literal (s l rest : string) :
  cannotBeginIn s l = true -> ~ Contains s rest -> ~ Contains s (l ++ rest).
Proof.
  unfold cannotBeginIn. rewrite andb_true_iff, negb_true_iff, includes_false, forallb_forall.
  intros [Hin Hseam] Hrest H.
  destruct (Contains_append_inv _ _ _ H) as [Hl | [Hr | [x [y [pre [post [Hs [Hx [Hy [Hpre _]]]]]]]]]].
  - now apply Hin.
  - now apply Hrest.
  - specialize (Hseam (x, y)). simpl in Hseam.
    rewrite Hs in Hseam. specialize (Hseam (splits_In x y)).
    apply falsy_false in Hx, Hy. rewrite Hx, Hy, Hpre, endsWith_true in Hseam. discriminate.
Qed.

(** Past an interpolated value that is followed by fixed text. *)
Lemma not_Contains_field (s f l rest : string) :
  cannotRunInto s l = true ->
  ~ Contains s f -> ~ Contains s (l ++ rest) -> ~ Contains s (f ++ l ++ rest).
Proof.
  unfold cannotRunInto. rewrite forallb_forall.
  intros Hseam Hf Hrest H.
  destruct (Contains_append_inv _ _ _ H) as [Hl | [Hr | [x [y [pre [post [Hs [Hx [Hy [_ Hpost]]]]]]]]]].
  - now apply Hf.
  - now apply Hrest.
  - specialize (Hseam (x, y)). simpl in Hseam.
    rewrite Hs in Hseam. specialize (Hseam (splits_In x y)).
    apply falsy_false in Hx, Hy. rewrite Hx, Hy, (compatible_true _ _ _ _ Hpost) in Hseam.
    discriminate.
Qed.

End StringFacts.

(** * The prompt composer *)

Lemma handleCreatePrompt_complete (st : State) :
  isFormIncomplete st = false ->
  handleCreatePrompt st =
  mkState results (application st) (operation st) (domain st) (department st)
          (composePrompt st) None None (isLoading st) (JArray []).
Proof. intros H. unfold handleCreatePrompt. rewrite H. reflexivity. Qed.

Lemma handleCreatePrompt_incomplete (st : State) :
  isFormIncomplete st = true ->
  handleCreatePrompt st = setFormError (Some formErrorMessage) st.
Proof. intros H. unfold handleCreatePrompt. rewrite H. reflexivity. Qed.

Lemma Contains_refl (s : string) : Contains s s.
Proof. exists EmptyString, EmptyString. simpl. now rewrite append_empty_r. Qed.

Lemma Contains_head (s post : string) : Contains s (s ++ post).
Proof. now exists EmptyString, post. Qed.

Lemma Contains_trans (a b c : string) : Contains a b -> Contains b c -> Contains a c.
Proof.
  intros [p [q ->]] [p' [q' ->]]. exists (p' ++ p), (q ++ q').
  now rewrite !append_assoc.
Qed.

(** Finds an interpolated value, or a trailing clause, in a template. *)
Ltac find_in_template :=
  repeat first [ apply Contains_refl | apply Contains_head | apply Contains_append_l ].

Lemma commonContext_Contains (d p a : string) :
  Contains d (commonContext d p a) /\ Contains p (commonContext d p a)
  /\ Contains a (commonContext d p a).
Proof. unfold commonContext. repeat split; find_in_template. Qed.

Lemma switchOperation_Contains_commonContext (op cc dc : string) :
  Contains cc (switchOperation op cc dc).
Proof.
  unfold switchOperation.
  repeat match goal with |- context [if ?b then _ else _] => destruct b end;
    find_in_template.
Qed.

Lemma not_Contains_field_last (s f l : string) :
  cannotRunInto s l = true -> ~ Contains s f -> ~ Contains s l -> ~ Contains s (f ++ l).
Proof.
  intros Hseam Hf Hl. rewrite <- (append_empty_r l).
  apply not_Contains_field; [exact Hseam | exact Hf | now rewrite append_empty_r].
Qed.

(** The dataset clause is in [commonContext] only through a value. *)
Lemma commonContext_omits (lead d p a : string) :
  cannotBeginIn datasetContext lead = true ->
  ~ Contains datasetContext d -> ~ Contains datasetContext p -> ~ Contains datasetContext a ->
  ~ Contains datasetContext (lead ++ commonContext d p a).
Proof.
  intros Hlead Hd Hp Ha. unfold commonContext.
  apply not_Contains_literal; [exact Hlead|].
  apply not_Contains_literal; [vm_compute; reflexivity|].
  apply not_Contains_field; [vm_compute; reflexivity | exact Hd |].
  apply not_Contains_literal; [vm_compute; reflexivity|].
  apply not_Contains_field; [vm_compute; reflexivity | exact Hp |].
  apply not_Contains_literal; [vm_compute; reflexivity|].
  apply not_Contains_field_last; [vm_compute; reflexivity | exact Ha |].
  apply includes_false. vm_compute. reflexivity.
Qed.

Lemma Contains_dec (s t : string) : Contains s t \/ ~ Contains s t.
Proof.
  destruct (includes s t) eqn:E; [left; now apply includes_true | right; now apply includes_false].
Qed.

Lemma knownOperation_false (op : string) :
  knownOperation op = false ->
  String.eqb op "Business_Rules" = false /\ String.eqb op "Technical_Rules" = false
  /\ String.eqb op "Estimations" = false /\ String.eqb op "Schema" = false.
Proof.
  unfold knownOperation. rewrite !orb_false_iff. tauto.
Qed.

(** C1 (as amended).  For a complete selection the composed prompt
    contains the domain, department and application values verbatim,
    whatever the operation.  For [Business_Rules] and [Technical_Rules]
    it contains the dataset-relation clause.  For [Estimations] and
    [Schema] the template adds no such clause: the prompt contains the
    clause exactly when one of the three interpolated values already
    contains it.  For any other operation the fallback prompt contains
    the operation value verbatim and the clause. *)
Theorem composed_prompt_contents (st : State) :
  isFormIncomplete st = false ->
  let prompt := generatedPrompt (handleCreatePrompt st) in
  (Contains (domain st) prompt /\ Contains (department st) prompt
   /\ Contains (application st) prompt)
  /\ (operation st = "Business_Rules" \/ operation st = "Technical_Rules" ->
      Contains datasetContext prompt)
  /\ (operation st = "Estimations" \/ operation st = "Schema" ->
      (Contains datasetContext prompt <->
       Contains datasetContext (domain st) \/ Contains datasetContext (department st)
       \/ Contains datasetContext (application st)))
  /\ (knownOperation (operation st) = false ->
      Contains (operation st) prompt /\ Contains datasetContext prompt).
Proof.
  intros Hc prompt. subst prompt. rewrite (handleCreatePrompt_complete st Hc).
  cbn [generatedPrompt]. unfold composePrompt.
  destruct (commonContext_Contains (domain st) (department st) (application st))
    as [Hd [Hp Ha]].
  pose proof (switchOperation_Contains_commonContext (operation st)
                (commonContext (domain st) (department st) (application st))
                datasetContext) as Hcc.
  split; [|split; [|split]].
  - repeat split; eapply Contains_trans; eauto.
  - intros [-> | ->]; cbn [switchOperation String.eqb Ascii.eqb Bool.eqb]; find_in_template.
  - intros Hop.
    assert (Hin : forall v, Contains datasetContext v ->
                  Contains v (commonContext (domain st) (department st) (application st)) ->
                  Contains datasetContext
                    (switchOperation (operation st)
                       (commonContext (domain st) (department st) (application st))
                       datasetContext)).
    { intros v H1 H2. eapply Contains_trans; [exact H1|].
      eapply Contains_trans; [exact H2 | exact Hcc]. }
    split.
    + intros H.
      destruct (Contains_dec datasetContext (domain st)) as [|Nd]; [now left|].
      destruct (Contains_dec datasetContext (department st)) as [|Np]; [now right; left|].
      destruct (Contains_dec datasetContext (application st)) as [|Na]; [now right; right|].
      exfalso. revert H.
      destruct Hop as [-> | ->]; cbn [switchOperation String.eqb Ascii.eqb Bool.eqb];
        apply commonContext_omits; try assumption; vm_compute; reflexivity.
    + intros [H | [H | H]]; eapply Hin; eauto.
  - intros Hk. apply knownOperation_false in Hk as [H1 [H2 [H3 H4]]].
    unfold switchOperation. rewrite H1, H2, H3, H4. split; find_in_template.
Qed.

Lemma composed_prompt_contents_witness :
  isFormIncomplete exampleSelection = false
  /\ Contains "Finance" (generatedPrompt (handleCreatePrompt exampleSelection))
  /\ Contains "Risk" (generatedPrompt (handleCreatePrompt exampleSelection))
  /\ Contains "Billing" (generatedPrompt (handleCreatePrompt exampleSelection))
  /\ ~ Contains datasetContext (generatedPrompt (handleCreatePrompt exampleSelection)).
Proof.
  destruct (composed_prompt_contents exampleSelection eq_refl)
    as [[Hd [Hp Ha]] [_ [Homit _]]].
  split; [reflexivity|]. split; [exact Hd|]. split; [exact Hp|]. split; [exact Ha|].
  intros H. apply (Homit (or_introl eq_refl)) in H.
  destruct H as [H | [H | H]]; apply includes_true in H; vm_compute in H; discriminate.
Defined.

(** C1 as stated fails: with the clause text as the domain value, the
    [Estimations] prompt of a complete selection contains the clause. *)
Lemma composed_prompt_omits_counterexample :
  isFormIncomplete clauseSelection = false
  /\ operation clauseSelection = "Estimations"
  /\ Contains datasetContext (generatedPrompt (handleCreatePrompt clauseSelection)).
Proof.
  split; [reflexivity|]. split; [reflexivity|].
  apply includes_true. vm_compute. reflexivity.
Qed.

(** A selection is incomplete exactly when one of its fields is empty. *)
Lemma isFormIncomplete_true (st : State) :
  isFormIncomplete st = true <->
  application st = EmptyString \/ operation st = EmptyString
  \/ domain st = EmptyString \/ department st = EmptyString.
Proof.
  unfold isFormIncomplete. rewrite !orb_true_iff.
  destruct (application st), (operation st), (domain st), (department st);
    simpl; intuition congruence.
Qed.

(** A selection is complete exactly when its four fields are non-empty. *)
Lemma isFormIncomplete_false (st : State) :
  isFormIncomplete st = false <->
  application st <> EmptyString /\ operation st <> EmptyString
  /\ domain st <> EmptyString /\ department st <> EmptyString.
Proof.
  unfold isFormIncomplete. rewrite !orb_false_iff, !falsy_false. tauto.
Qed.

(** C2.  Composing from a selection with an empty field sets the
    validation error and nothing else: no prompt is stored, and the page,
    the rule list, the fetch error and the selection stay as they were;
    in particular a component on the configuration page stays there. *)
Theorem incomplete_selection_is_rejected (st : State) :
  application st = EmptyString \/ operation st = EmptyString
  \/ domain st = EmptyString \/ department st = EmptyString ->
  let st' := handleCreatePrompt st in
  formError st' = Some formErrorMessage
  /\ generatedPrompt st' = generatedPrompt st
  /\ page st' = page st
  /\ (page st = config -> page st' = config)
  /\ st' = setFormError (Some formErrorMessage) st.
Proof.
  intros H st'. subst st'. apply isFormIncomplete_true in H.
  rewrite (handleCreatePrompt_incomplete st H).
  repeat split; auto.
Qed.

Lemma incomplete_selection_is_rejected_witness :
  application partialSelection = EmptyString
  /\ formError (handleCreatePrompt partialSelection) = Some formErrorMessage
  /\ generatedPrompt (handleCreatePrompt partialSelection) = EmptyString
  /\ page (handleCreatePrompt partialSelection) = config.
Proof.
  destruct (incomplete_selection_is_rejected partialSelection (or_introl eq_refl))
    as [He [Hp [_ [Hpage _]]]].
  split; [reflexivity|]. split; [exact He|]. split; [exact Hp|].
  apply Hpage. reflexivity.
Defined.

(** C3.  Composing from a complete selection moves the page from
    configuration to review, stores the composed text as the prompt,
    empties the rule list and clears the fetch error (and the validation
    error); the selection and the loading flag are untouched. *)
Theorem complete_selection_enters_review (st : State) :
  isFormIncomplete st = false ->
  let st' := handleCreatePrompt st in
  page st' = results
  /\ generatedPrompt st' = composePrompt st
  /\ rules st' = JArray []
  /\ apiError st' = None
  /\ formError st' = None
  /\ application st' = application st /\ operation st' = operation st
  /\ domain st' = domain st /\ department st' = department st
  /\ isLoading st' = isLoading st.
Proof.
  intros H st'. subst st'. rewrite (handleCreatePrompt_complete st H).
  repeat split.
Qed.

Lemma complete_selection_enters_review_witness :
  isFormIncomplete exampleSelection = false
  /\ page exampleSelection = config
  /\ page (handleCreatePrompt exampleSelection) = results
  /\ rules (handleCreatePrompt exampleSelection) = JArray []
  /\ apiError (handleCreatePrompt exampleSelection) = None.
Proof.
  destruct (complete_selection_enters_review exampleSelection eq_refl)
    as [Hpage [_ [Hrules [Hapi _]]]].
  repeat split; assumption.
Defined.

(** C5.  The prompt is a function of the four selection values: two
    complete selections that agree on them compose the same text,
    whatever the rest of the state.  The [switch] is total: every
    operation value takes exactly one of five branches, the values other
    than the four known ones taking the fallback. *)
Theorem composing_is_deterministic_and_total (st1 st2 : State) :
  isFormIncomplete st1 = false ->
  isFormIncomplete st2 = false ->
  application st1 = application st2 ->
  operation st1 = operation st2 ->
  domain st1 = domain st2 ->
  department st1 = department st2 ->
  generatedPrompt (handleCreatePrompt st1) = generatedPrompt (handleCreatePrompt st2)
  /\ let cc := commonContext (domain st1) (department st1) (application st1) in
     let prompt := generatedPrompt (handleCreatePrompt st1) in
     (operation st1 = "Business_Rules"
      /\ prompt = "I want to create Business data quality rules " ++ cc ++ " " ++ datasetContext)
     \/ (operation st1 = "Technical_Rules"
         /\ prompt = "I want to create technical data quality rules (e.g., SQL queries, Python scripts) "
                     ++ cc ++ " " ++ datasetContext)
     \/ (operation st1 = "Estimations"
         /\ prompt = "I want to get estimations (e.g., effort in hours, complexity) for implementing data quality rules "
                     ++ cc)
     \/ (operation st1 = "Schema"
         /\ prompt = "I want to generate a data schema definition (e.g., JSON Schema, SQL DDL) " ++ cc)
     \/ (knownOperation (operation st1) = false
         /\ prompt = "Generate data quality information regarding " ++ operation st1 ++ " "
                     ++ cc ++ " " ++ datasetContext).
Proof.
  intros H1 H2 Ha Ho Hd Hp.
  rewrite (handleCreatePrompt_complete st1 H1), (handleCreatePrompt_complete st2 H2).
  cbn [generatedPrompt]. unfold composePrompt. split.
  - now rewrite Ha, Ho, Hd, Hp.
  - cbv zeta. unfold switchOperation, knownOperation.
    destruct (String.eqb_spec (operation st1) "Business_Rules") as [E1|N1]; [now left|].
    destruct (String.eqb_spec (operation st1) "Technical_Rules") as [E2|N2]; [now right; left|].
    destruct (String.eqb_spec (operation st1) "Estimations") as [E3|N3];
      [now right; right; left|].
    destruct (String.eqb_spec (operation st1) "Schema") as [E4|N4];
      [now right; right; right; left|].
    right; right; right; right. split; reflexivity.
Qed.

Lemma composing_is_deterministic_and_total_witness :
  generatedPrompt (handleCreatePrompt exampleSelection)
  = generatedPrompt (handleCreatePrompt (setIsLoading true (setPage results exampleSelection))).
Proof.
  exact (proj1 (composing_is_deterministic_and_total
                  exampleSelection (setIsLoading true (setPage results exampleSelection))
                  eq_refl eq_refl eq_refl eq_refl eq_refl eq_refl)).
Defined.

(** C7.  The back action puts the page on configuration from any state,
    whatever the loading flag, the fetch error and the rule list are;
    it clears the validation error; the four selection values, the
    prompt, the rule list, the fetch error and the loading flag are left
    as they were. *)
Theorem back_returns_to_configuration (st : State) :
  let st' := handleBack st in
  page st' = config
  /\ formError st' = None
  /\ application st' = application st /\ operation st' = operation st
  /\ domain st' = domain st /\ department st' = department st
  /\ rules st' = rules st
  /\ apiError st' = apiError st /\ isLoading st' = isLoading st
  /\ generatedPrompt st' = generatedPrompt st.
Proof. cbv zeta. unfold handleBack. repeat split. Qed.

Lemma composePrompt_not_empty (st : State) : falsy (composePrompt st) = false.
Proof.
  unfold composePrompt, switchOperation.
  repeat match goal with |- context [if ?b then _ else _] => destruct b end; reflexivity.
Qed.

(** C10.  The prompt composed from a complete selection is not the empty
    string, in each of the five branches; on entering review the
    [!generatedPrompt] half of the fetch button's disable condition is
    false, so the button is disabled only if a fetch is still loading. *)
Theorem composed_prompt_is_not_empty (st : State) :
  isFormIncomplete st = false ->
  let st' := handleCreatePrompt st in
  page st' = results
  /\ generatedPrompt st' <> EmptyString
  /\ falsy (generatedPrompt st') = false
  /\ generateRulesDisabled st' = isLoading st.
Proof.
  intros H st'. subst st'. rewrite (handleCreatePrompt_complete st H).
  unfold generateRulesDisabled. cbn [page generatedPrompt isLoading].
  pose proof (composePrompt_not_empty st) as Hne.
  repeat split.
  - now apply falsy_false.
  - exact Hne.
  - rewrite Hne. apply orb_false_r.
Qed.

Lemma composed_prompt_is_not_empty_witness :
  isFormIncomplete exampleSelection = false
  /\ generatedPrompt (handleCreatePrompt exampleSelection) <> EmptyString
  /\ generateRulesDisabled (handleCreatePrompt exampleSelection) = false.
Proof.
  destruct (composed_prompt_is_not_empty exampleSelection eq_refl) as [_ [Hne [_ Hd]]].
  split; [reflexivity|]. split; [exact Hne | exact Hd].
Defined.

(** * The rule fetcher *)

Lemma Invariant_initial : Invariant initialApp.
Proof. left. split; reflexivity. Qed.

Lemma handleCreatePrompt_isLoading (st : State) :
  isLoading (handleCreatePrompt st) = isLoading st.
Proof.
  destruct (isFormIncomplete st) eqn:E.
  - now rewrite (handleCreatePrompt_incomplete st E).
  - now rewrite (handleCreatePrompt_complete st E).
Qed.

Lemma handleCreatePrompt_rules (st : State) :
  rules (handleCreatePrompt st) = rules st \/ rules (handleCreatePrompt st) = JArray [].
Proof.
  destruct (isFormIncomplete st) eqn:E.
  - left. now rewrite (handleCreatePrompt_incomplete st E).
  - right. now rewrite (handleCreatePrompt_complete st E).
Qed.

Lemma Invariant_dispatch (e : Event) (a : App) :
  Invariant a -> Invariant (dispatch e a).
Proof.
  intros [[Hp Hl] | [[r Hp] [Hl Hr]]].
  - (* nothing awaited *)
    destruct e; unfold dispatch; destruct (page (state a)) eqn:Epage;
      try (left; split; assumption).
    + unfold Button. destruct (createPromptDisabled (state a)); left; split;
        try assumption. unfold onState. cbn [state pending observed].
      now rewrite handleCreatePrompt_isLoading.
    + unfold Button. destruct (generateRulesDisabled (state a)).
      * left; split; assumption.
      * right. unfold handleGenerateRules. cbn. rewrite Hp. repeat split.
        now exists (generateContentRequest (generatedPrompt (state a))).
    + unfold settle. rewrite Hp. left; split; assumption.
    + unfold settle. rewrite Hp. left; split; assumption.
  - (* one call awaited *)
    assert (Hsame : Invariant a) by (right; repeat split; [now exists r | |]; assumption).
    destruct e; unfold dispatch; destruct (page (state a)) eqn:Epage;
      try exact Hsame;
      try (right; repeat split; [now exists r | |]; assumption).
    + unfold Button. destruct (createPromptDisabled (state a)); [exact Hsame|].
      right. unfold Fetching, onState. cbn [state pending observed].
      rewrite handleCreatePrompt_isLoading.
      repeat split; [now exists r | assumption |].
      destruct (handleCreatePrompt_rules (state a)) as [H | H]; congruence.
    + unfold Button, generateRulesDisabled. rewrite Hl. exact Hsame.
    + unfold settle. rewrite Hp. left. split; reflexivity.
    + unfold settle. rewrite Hp. left. split; reflexivity.
Qed.

Lemma Invariant_run (es : list Event) (a : App) : Invariant a -> Invariant (run es a).
Proof.
  revert a. induction es as [|e es IH]; intros a H; simpl.
  - exact H.
  - apply IH. now apply Invariant_dispatch.
Qed.

Lemma Reachable_Invariant (a : App) : Reachable a -> Invariant a.
Proof. intros [es ->]. apply Invariant_run, Invariant_initial. Qed.

Lemma Reachable_run (es : list Event) : Reachable (run es initialApp).
Proof. now exists es. Qed.

Lemma run_snoc (es : list Event) (e : Event) (a : App) :
  run (es ++ [e])%list a = dispatch e (run es a).
Proof.
  revert a. induction es as [|e' es IH]; intros a; simpl; [reflexivity | apply IH].
Qed.

Lemma Reachable_dispatch (e : Event) (a : App) : Reachable a -> Reachable (dispatch e a).
Proof. intros [es ->]. exists (es ++ [e])%list. symmetry. apply run_snoc. Qed.

Lemma dispatch_ClickGenerateRules_loading (a : App) :
  isLoading (state a) = true -> dispatch ClickGenerateRules a = a.
Proof.
  intros H. unfold dispatch. destruct (page (state a)); [reflexivity|].
  unfold Button, generateRulesDisabled. now rewrite H.
Qed.

(** C6.  In every reachable state at most one call is awaited, and a call
    is awaited exactly when the loading flag is up.  While it is up the
    fetch button is disabled, and a click on it changes nothing: no state
    cell, no awaited call, no request seen by the service. *)
Theorem fetch_is_not_reentrant (a : App) :
  Reachable a ->
  length (pending a) <= 1
  /\ (isLoading (state a) = true <-> pending a <> [])
  /\ (isLoading (state a) = true ->
      generateRulesDisabled (state a) = true
      /\ dispatch ClickGenerateRules a = a).
Proof.
  intros H. apply Reachable_Invariant in H.
  split; [|split].
  - destruct H as [[Hp _] | [[r Hp] _]]; rewrite Hp; simpl; lia.
  - destruct H as [[Hp Hl] | [[r Hp] [Hl _]]]; rewrite Hp, Hl; split; intros H;
      try discriminate; try reflexivity; now elim H.
  - intros Hl. split.
    + unfold generateRulesDisabled. now rewrite Hl.
    + now apply dispatch_ClickGenerateRules_loading.
Qed.

Lemma fetch_is_not_reentrant_witness :
  isLoading (state fetchingApp) = true
  /\ length (pending fetchingApp) = 1
  /\ dispatch ClickGenerateRules fetchingApp = fetchingApp
  /\ length (observed (dispatch ClickGenerateRules fetchingApp)) = 1.
Proof.
  destruct (fetch_is_not_reentrant fetchingApp (Reachable_run exampleSession))
    as [_ [_ H]].
  destruct (H eq_refl) as [_ Hsame].
  split; [reflexivity|]. split; [reflexivity|]. split; [exact Hsame|].
  rewrite Hsame. reflexivity.
Defined.

(** C4 (as amended).  When the awaited call of a reachable state ends
    with the [try] block throwing (the service call throws or rejects, or
    [JSON.parse] rejects the text), the rule list is empty, the one fetch
    error cell holds the error message, the loading flag is down, nothing
    is awaited any more and the service has seen no further request. *)
Theorem thrown_fetch_reports_error (a : App) (o : TryOutcome) :
  Reachable a ->
  pending a <> [] ->
  threw o = true ->
  let a' := dispatch (Settle o) a in
  rules (state a') = JArray []
  /\ apiError (state a') = Some apiErrorMessage
  /\ isLoading (state a') = false
  /\ pending a' = []
  /\ observed a' = observed a
  /\ state a' = setIsLoading false (setApiError (Some apiErrorMessage) (state a)).
Proof.
  intros H Hp Ho a'. subst a'. apply Reachable_Invariant in H.
  destruct H as [[Hp' _] | [[r Hr] [_ Hrules]]]; [contradiction|].
  assert (E : dispatch (Settle o) a
              = mkApp (handleGenerateRules_resume o (state a)) [] (observed a)).
  { unfold dispatch, settle. rewrite Hr. now destruct (page (state a)). }
  rewrite E. cbn [state pending observed].
  destruct o; try discriminate; cbn; repeat split; assumption.
Qed.

Lemma thrown_fetch_reports_error_witness :
  rules (state (dispatch (Settle ParseThrew) fetchingApp)) = JArray []
  /\ apiError (state (dispatch (Settle ParseThrew) fetchingApp)) = Some apiErrorMessage
  /\ isLoading (state (dispatch (Settle ParseThrew) fetchingApp)) = false
  /\ observed (dispatch (Settle ParseThrew) fetchingApp) = observed fetchingApp.
Proof.
  assert (Hp : pending fetchingApp <> []) by discriminate.
  destruct (thrown_fetch_reports_error fetchingApp ParseThrew
              (Reachable_run exampleSession) Hp eq_refl)
    as [Hr [He [Hl [_ [Ho _]]]]].
  split; [exact Hr|]. split; [exact He|]. split; [exact Hl | exact Ho].
Defined.

(** C4 as stated fails for a schema violation: the awaited call returns
    JSON that is not a list of rules; it is stored as the rule list and
    no fetch error is set. *)
Lemma schema_violation_counterexample :
  Reachable fetchingApp
  /\ pending fetchingApp <> []
  /\ fetchFailed (Parsed shapelessRules) = true
  /\ rules (state (dispatch (Settle (Parsed shapelessRules)) fetchingApp)) = shapelessRules
  /\ shapelessRules <> JArray []
  /\ apiError (state (dispatch (Settle (Parsed shapelessRules)) fetchingApp)) = None.
Proof.
  split; [apply Reachable_run|]. repeat split; try reflexivity; discriminate.
Qed.

(** C8 (as amended).  The rule list starts empty.  One event either
    leaves it as it is, empties it, or, when an awaited call returns a
    parsed value, replaces it by that value in one update.  A successful
    composition and the start of a fetch empty it; the back action leaves
    it as it is. *)
Theorem rule_list_lifecycle (e : Event) (a : App) :
  rules initialState = JArray []
  /\ (rules (state (dispatch e a)) = rules (state a)
      \/ rules (state (dispatch e a)) = JArray []
      \/ exists v, e = Settle (Parsed v) /\ pending a <> []
                   /\ rules (state (dispatch e a)) = v)
  /\ (e = ClickCreatePrompt -> page (state a) = config ->
      isFormIncomplete (state a) = false ->
      rules (state (dispatch e a)) = JArray [])
  /\ (e = ClickGenerateRules -> page (state a) = results ->
      generateRulesDisabled (state a) = false ->
      rules (state (dispatch e a)) = JArray [])
  /\ (e = ClickBack -> rules (state (dispatch e a)) = rules (state a)).
Proof.
  split; [reflexivity|]. split; [|split; [|split]].
  - destruct e; unfold dispatch; destruct (page (state a)); try (left; reflexivity).
    + unfold Button. destruct (createPromptDisabled (state a)); [now left|].
      destruct (handleCreatePrompt_rules (state a)) as [H | H]; [left | right; left]; exact H.
    + unfold Button. destruct (generateRulesDisabled (state a)); [now left|].
      right; left. reflexivity.
    + unfold settle. destruct (pending a) eqn:Ep; [now left|].
      destruct o; try (left; reflexivity).
      right; right. exists parsedRules. repeat split. discriminate.
    + unfold settle. destruct (pending a) eqn:Ep; [now left|].
      destruct o; try (left; reflexivity).
      right; right. exists parsedRules. repeat split. discriminate.
  - intros -> Hpage Hc. unfold dispatch, Button, createPromptDisabled, onState.
    rewrite Hpage, Hc. cbn [state]. now rewrite (handleCreatePrompt_complete _ Hc).
  - intros -> Hpage Hd. unfold dispatch, Button. rewrite Hpage, Hd. reflexivity.
  - intros ->. unfold dispatch. now destruct (page (state a)).
Qed.

Lemma rule_list_lifecycle_witness :
  rules (state reviewedApp) = exampleRules
  /\ rules (state (dispatch ClickGenerateRules reviewedApp)) = JArray []
  /\ rules (state (dispatch ClickBack reviewedApp)) = exampleRules.
Proof.
  destruct (rule_list_lifecycle ClickGenerateRules reviewedApp) as [_ [_ [_ [Hg _]]]].
  destruct (rule_list_lifecycle ClickBack reviewedApp) as [_ [_ [_ [_ Hb]]]].
  split; [reflexivity|]. split.
  - apply Hg; reflexivity.
  - rewrite (Hb eq_refl). reflexivity.
Defined.

(** C8 as stated fails: the back action returns to configuration with
    the fetched rules still in the list. *)
Lemma back_keeps_rules_counterexample :
  Reachable reviewedApp
  /\ page (state reviewedApp) = results
  /\ page (state (dispatch ClickBack reviewedApp)) = config
  /\ rules (state (dispatch ClickBack reviewedApp)) = exampleRules
  /\ exampleRules <> JArray [].
Proof.
  split; [apply Reachable_dispatch, Reachable_run|].
  split; [vm_compute; reflexivity|]. split; [vm_compute; reflexivity|].
  split; [vm_compute; reflexivity | discriminate].
Qed.




(** * Further properties of the composer *)

Lemma splits_sound (t p q : string) : In (p, q) (splits t) -> t = p ++ q.
Proof.
  revert p q. induction t as [|c t IH]; intros p q H; simpl in H.
  - destruct H as [H | []]. now inversion H.
  - destruct H as [H | H]; [now inversion H|].
    apply in_map_iff in H as [[p' q'] [E Hin]]. simpl in E. inversion E; subst.
    simpl. now rewrite <- (IH _ _ Hin).
Qed.

Lemma endsWith_iff (x t : string) : endsWith x t = true <-> exists pre, t = pre ++ x.
Proof.
  split.
  - intros H. apply existsb_exists in H as [[p q] [Hin E]]. simpl in E.
    apply String.eqb_eq in E. subst q. exists p. now apply splits_sound.
  - intros [pre ->]. apply endsWith_true.
Qed.

Lemma endsWith_refl (x : string) : endsWith x x = true.
Proof. apply endsWith_iff. now exists EmptyString. Qed.

Lemma endsWith_append_l (x p t : string) : endsWith x t = true -> endsWith x (p ++ t) = true.
Proof.
  rewrite !endsWith_iff. intros [pre ->]. exists (p ++ pre). now rewrite append_assoc.
Qed.

(** A string that ends with [l] and with [s]: one of the two ends the
    other. *)
Lemma endsWith_both (s l y : string) :
  endsWith s (y ++ l) = true -> endsWith l s = true \/ endsWith s l = true.
Proof.
  intros H. apply endsWith_iff in H as [pre H].
  destruct (append_eq_append _ _ _ _ H) as [m [[_ Hs] | [_ Hl]]].
  - left. apply endsWith_iff. now exists m.
  - right. apply endsWith_iff. now exists m.
Qed.

Lemma commonContext_last (lead d p a : string) :
  exists y, lead ++ commonContext d p a = y ++ " application.".
Proof.
  unfold commonContext.
  exists (lead ++ "for the critical data elements like First Name, LastName, Middle Name, and CustomerID for the "
          ++ d ++ " domain in the " ++ p ++ " department, within the context of the " ++ a).
  now rewrite !append_assoc.
Qed.

Ltac at_the_end := repeat first [ apply endsWith_refl | apply endsWith_append_l ].

(** X1.  The composed prompt of a complete selection ends with the
    dataset clause exactly when the operation is neither [Estimations]
    nor [Schema]. *)
Theorem prompt_ends_with_clause (st : State) :
  isFormIncomplete st = false ->
  (endsWith datasetContext (generatedPrompt (handleCreatePrompt st)) = true
   <-> operation st <> "Estimations" /\ operation st <> "Schema").
Proof.
  intros Hc. rewrite (handleCreatePrompt_complete st Hc). cbn [generatedPrompt].
  unfold composePrompt, switchOperation.
  destruct (String.eqb_spec (operation st) "Business_Rules") as [E1|N1].
  { split; [intros _; rewrite E1; split; discriminate | intros _; at_the_end]. }
  destruct (String.eqb_spec (operation st) "Technical_Rules") as [E2|N2].
  { split; [intros _; rewrite E2; split; discriminate | intros _; at_the_end]. }
  destruct (String.eqb_spec (operation st) "Estimations") as [E3|N3].
  { split; [|intros [H _]; contradiction]. intros H. exfalso.
    destruct (commonContext_last
                "I want to get estimations (e.g., effort in hours, complexity) for implementing data quality rules "
                (domain st) (department st) (application st)) as [y Hy].
    rewrite Hy in H. apply endsWith_both in H as [H | H]; vm_compute in H; discriminate. }
  destruct (String.eqb_spec (operation st) "Schema") as [E4|N4].
  { split; [|intros [_ H]; contradiction]. intros H. exfalso.
    destruct (commonContext_last
                "I want to generate a data schema definition (e.g., JSON Schema, SQL DDL) "
                (domain st) (department st) (application st)) as [y Hy].
    rewrite Hy in H. apply endsWith_both in H as [H | H]; vm_compute in H; discriminate. }
  split; [intros _; split; assumption | intros _; at_the_end].
Qed.

Lemma prompt_ends_with_clause_witness :
  endsWith datasetContext (generatedPrompt (handleCreatePrompt clauseSelection)) = false.
Proof.
  destruct (endsWith datasetContext (generatedPrompt (handleCreatePrompt clauseSelection)))
    eqn:E; [|reflexivity].
  apply (prompt_ends_with_clause clauseSelection eq_refl) in E.
  destruct E as [E _]. now elim E.
Defined.

(** X2.  Composing, editing the prompt, going back and composing again
    from the same selection gives the state of the first composition: the
    edit is discarded. *)
Theorem recomposing_discards_edit (a : App) (v : string) :
  page (state a) = config ->
  isFormIncomplete (state a) = false ->
  run [ ClickCreatePrompt; ChangePrompt v; ClickBack; ClickCreatePrompt ] a
  = dispatch ClickCreatePrompt a.
Proof.
  destruct a as [st awaited seen]. cbn [state]. intros Hpage Hc. cbn [run].
  assert (E1 : dispatch ClickCreatePrompt (mkApp st awaited seen)
               = mkApp (handleCreatePrompt st) awaited seen).
  { unfold dispatch, Button, createPromptDisabled, onState. cbn [state pending observed].
    now rewrite Hpage, Hc. }
  rewrite E1, (handleCreatePrompt_complete st Hc).
  set (composed := mkState results (application st) (operation st) (domain st)
                           (department st) (composePrompt st) None None (isLoading st)
                           (JArray [])).
  set (back := handleBack (setGeneratedPrompt v composed)).
  assert (E2 : dispatch ClickBack
                 (dispatch (ChangePrompt v) (mkApp composed awaited seen))
               = mkApp back awaited seen) by reflexivity.
  rewrite E2.
  assert (Hback : isFormIncomplete back = false) by exact Hc.
  unfold dispatch, Button, createPromptDisabled, onState. cbn [state pending observed].
  change (page back) with config. cbv iota. rewrite Hback.
  rewrite (handleCreatePrompt_complete back Hback). reflexivity.
Qed.

Lemma recomposing_discards_edit_witness :
  generatedPrompt
    (state (run [ ClickCreatePrompt; ChangePrompt "edited"; ClickBack; ClickCreatePrompt ]
                (mkApp exampleSelection [] [])))
  = composePrompt exampleSelection.
Proof.
  rewrite (recomposing_discards_edit (mkApp exampleSelection [] []) "edited" eq_refl eq_refl).
  reflexivity.
Defined.

(** X3.  Right after a successful composition the copy button of the
    prompt writes the composed text to the clipboard and then alerts;
    in any state it does nothing exactly when the prompt is empty. *)
Theorem copy_prompt_after_composing (st : State) :
  isFormIncomplete st = false ->
  clickCopyPrompt (handleCreatePrompt st)
  = [ WriteText (composePrompt st); Alert "Prompt copied to clipboard!" ]
  /\ forall st', clickCopyPrompt st' = [] <-> generatedPrompt st' = EmptyString.
Proof.
  intros Hc. split.
  - rewrite (handleCreatePrompt_complete st Hc). unfold clickCopyPrompt, copyToClipboard.
    cbn [generatedPrompt]. now rewrite composePrompt_not_empty.
  - intros st'. unfold clickCopyPrompt, copyToClipboard.
    destruct (generatedPrompt st'); simpl; split; intros H; try reflexivity; discriminate.
Qed.

Lemma copy_prompt_after_composing_witness :
  clickCopyPrompt (handleCreatePrompt exampleSelection)
  = [ WriteText (composePrompt exampleSelection); Alert "Prompt copied to clipboard!" ].
Proof. exact (proj1 (copy_prompt_after_composing exampleSelection eq_refl)). Defined.

(** * Further properties of the component as a whole *)

Lemma Consistent_initial : Consistent initialApp.
Proof.
  split; [reflexivity|]. split; [discriminate|]. split; [now left | constructor].
Qed.

Lemma Consistent_dispatch (e : Event) (a : App) :
  Invariant a -> Consistent a -> Consistent (dispatch e a).
Proof.
  intros Hinv Hcons. pose proof Hcons as [Hf [Hp [Ha Ho]]].
  destruct e; unfold dispatch; destruct (page (state a)) eqn:Epage; try exact Hcons.
  - split; [exact Hf|]. split; [cbn; intros H; congruence|]. split; [exact Ha | exact Ho].
  - split; [exact Hf|]. split; [cbn; intros H; congruence|]. split; [exact Ha | exact Ho].
  - split; [exact Hf|]. split; [cbn; intros H; congruence|]. split; [exact Ha | exact Ho].
  - split; [exact Hf|]. split; [cbn; intros H; congruence|]. split; [exact Ha | exact Ho].
  - unfold Button, createPromptDisabled.
    destruct (isFormIncomplete (state a)) eqn:Ed; [exact Hcons|].
    unfold Consistent, onState. cbn [state pending observed].
    rewrite (handleCreatePrompt_complete _ Ed).
    split; [reflexivity|]. split; [intros _; exact Ed|]. split; [now left | exact Ho].
  - split; [reflexivity|]. split; [discriminate|]. split; [exact Ha | exact Ho].
  - unfold Button. destruct (generateRulesDisabled (state a)) eqn:Ed; [exact Hcons|].
    unfold generateRulesDisabled in Ed. apply orb_false_iff in Ed as [_ Hne].
    split; [exact Hf|]. split; [intros _; exact (Hp eq_refl)|]. split; [now left|].
    unfold handleGenerateRules. cbn [handleGenerateRules_call observed].
    apply Forall_app. split; [exact Ho|]. constructor; [|constructor].
    exists (generatedPrompt (state a)). split; [exact Hne | reflexivity].
  - unfold settle. destruct (pending a) as [|r rest] eqn:Ep; [exact Hcons|].
    destruct Hinv as [[Hnil _] | [_ [Hl Hr]]]; [congruence|].
    split; [destruct o; exact Hf|].
    split; [destruct o; intros H; cbn in H; congruence|].
    split; [|exact Ho].
    destruct o; cbn.
    + right. repeat split. exact Hr.
    + right. repeat split. exact Hr.
    + left. destruct Ha as [Hn | [_ [_ Hl']]]; [exact Hn | congruence].
  - unfold settle. destruct (pending a) as [|r rest] eqn:Ep; [exact Hcons|].
    destruct Hinv as [[Hnil _] | [_ [Hl Hr]]]; [congruence|].
    split; [destruct o; exact Hf|]. split; [destruct o; intros _; exact (Hp eq_refl)|].
    split; [|exact Ho].
    destruct o; cbn.
    + right. repeat split. exact Hr.
    + right. repeat split. exact Hr.
    + left. destruct Ha as [Hn | [_ [_ Hl']]]; [exact Hn | congruence].
Qed.

Lemma Consistent_run (es : list Event) (a : App) :
  Invariant a -> Consistent a -> Consistent (run es a).
Proof.
  revert a. induction es as [|e es IH]; intros a Hi Hc; simpl; [exact Hc|].
  apply IH; [now apply Invariant_dispatch | now apply Consistent_dispatch].
Qed.

Lemma Reachable_Consistent (a : App) : Reachable a -> Consistent a.
Proof.
  intros [es ->]. apply Consistent_run; [apply Invariant_initial | apply Consistent_initial].
Qed.

(** X4.  No reachable state has a validation error: the button that
    calls [handleCreatePrompt] is disabled while the form is incomplete,
    so the branch of lines 30-33 never runs. *)
Theorem validation_error_is_never_shown (a : App) :
  Reachable a -> formError (state a) = None.
Proof. intros H. now destruct (Reachable_Consistent a H) as [Hf _]. Qed.

Lemma validation_error_is_never_shown_witness :
  formError (state (dispatch ClickCreatePrompt initialApp)) = None.
Proof.
  apply validation_error_is_never_shown. apply Reachable_dispatch. now exists [].
Defined.

(** X5.  The review page is only ever shown for a complete selection. *)
Theorem review_page_has_complete_selection (a : App) :
  Reachable a ->
  page (state a) = results ->
  application (state a) <> EmptyString /\ operation (state a) <> EmptyString
  /\ domain (state a) <> EmptyString /\ department (state a) <> EmptyString.
Proof.
  intros H Hpage. destruct (Reachable_Consistent a H) as [_ [Hp _]].
  apply isFormIncomplete_false. now apply Hp.
Qed.

Lemma review_page_has_complete_selection_witness :
  application (state fetchingApp) <> EmptyString.
Proof.
  exact (proj1 (review_page_has_complete_selection fetchingApp
                  (Reachable_run exampleSession) eq_refl)).
Defined.

(** X6.  In every reachable state the fetch error is absent or is the one
    fixed message; when it is present the rule list is empty and nothing
    is loading, and while a fetch is loading there is neither an error
    nor a rule: the spinner, the error line and the table exclude each
    other. *)
Theorem error_rules_and_spinner_exclude (a : App) :
  Reachable a ->
  (apiError (state a) = None \/ apiError (state a) = Some apiErrorMessage)
  /\ (apiError (state a) <> None ->
      rules (state a) = JArray [] /\ isLoading (state a) = false)
  /\ (isLoading (state a) = true ->
      apiError (state a) = None /\ rules (state a) = JArray []).
Proof.
  intros H. destruct (Reachable_Consistent a H) as [_ [_ [Ha _]]].
  apply Reachable_Invariant in H.
  split; [|split].
  - destruct Ha as [Hn | [Hs _]]; [now left | now right].
  - intros Hne. destruct Ha as [Hn | [_ Hrest]]; [contradiction | exact Hrest].
  - intros Hl. split.
    + destruct Ha as [Hn | [_ [_ Hl']]]; [exact Hn | congruence].
    + destruct H as [[_ Hl'] | [_ [_ Hr]]]; [congruence | exact Hr].
Qed.

Lemma error_rules_and_spinner_exclude_witness :
  apiError (state (dispatch (Settle BoundaryThrew) fetchingApp)) <> None
  /\ rules (state (dispatch (Settle BoundaryThrew) fetchingApp)) = JArray [].
Proof.
  assert (Hne : apiError (state (dispatch (Settle BoundaryThrew) fetchingApp)) <> None)
    by discriminate.
  destruct (error_rules_and_spinner_exclude
              (dispatch (Settle BoundaryThrew) fetchingApp)
              (Reachable_dispatch _ _ (Reachable_run exampleSession))) as [_ [H _]].
  split; [exact Hne | exact (proj1 (H Hne))].
Defined.

(** X7.  Every request the service ever sees was built by
    [generateContentRequest] from a prompt that is not empty, so it asks
    for JSON in the rule-list schema: the component never sends an empty
    prompt. *)
Theorem requests_carry_a_prompt (a : App) (request : GenerateContentParameters) :
  Reachable a ->
  In request (observed a) ->
  (exists prompt, prompt <> EmptyString /\ request = generateContentRequest prompt)
  /\ responseMimeType request = "application/json"
  /\ responseSchema request = rulesSchema
  /\ model request = "gemini-2.5-pro".
Proof.
  intros H Hin. destruct (Reachable_Consistent a H) as [_ [_ [_ Ho]]].
  rewrite Forall_forall in Ho. destruct (Ho request Hin) as [prompt [Hne ->]].
  split; [|repeat split]. exists prompt. split; [now apply falsy_false | reflexivity].
Qed.

Lemma requests_carry_a_prompt_witness :
  responseSchema (generateContentRequest (generatedPrompt (state fetchingApp))) = rulesSchema.
Proof.
  assert (Hin : In (generateContentRequest (generatedPrompt (state fetchingApp)))
                   (observed fetchingApp)) by (left; reflexivity).
  destruct (requests_carry_a_prompt fetchingApp _ (Reachable_run exampleSession) Hin)
    as [_ [_ [Hs _]]].
  exact Hs.
Defined.

Lemma dispatch_Settle (o : TryOutcome) (a : App) : dispatch (Settle o) a = settle o a.
Proof. unfold dispatch. now destruct (page (state a)). Qed.

Lemma awaiting_dispatch (e : Event) (a : App) (r : GenerateContentParameters) :
  pending a = [r] -> isLoading (state a) = true -> isSettle e = false ->
  pending (dispatch e a) = [r] /\ isLoading (state (dispatch e a)) = true
  /\ observed (dispatch e a) = observed a.
Proof.
  intros Hp Hl He.
  destruct e; try discriminate; unfold dispatch; destruct (page (state a));
    try (repeat split; assumption).
  - unfold Button. destruct (createPromptDisabled (state a)); [repeat split; assumption|].
    unfold onState. cbn [state pending observed]. rewrite handleCreatePrompt_isLoading.
    repeat split; assumption.
  - unfold Button, generateRulesDisabled. rewrite Hl. repeat split; assumption.
Qed.

(** X8.  While a call is awaited no user event ends the loading, cancels
    the call or sends another request: whatever the user does (edit the
    prompt, go back, change the selection, compose again, click the fetch
    button), the same call is still awaited and the flag is still up. *)
Theorem awaiting_survives_user_events (a : App) (r : GenerateContentParameters)
        (es : list Event) :
  pending a = [r] ->
  isLoading (state a) = true ->
  forallb (fun e => negb (isSettle e)) es = true ->
  pending (run es a) = [r]
  /\ isLoading (state (run es a)) = true
  /\ observed (run es a) = observed a.
Proof.
  revert a. induction es as [|e es IH]; intros a Hp Hl Hes; simpl.
  - repeat split; assumption.
  - simpl in Hes. apply andb_true_iff in Hes as [He Hes]. apply negb_true_iff in He.
    destruct (awaiting_dispatch e a r Hp Hl He) as [Hp' [Hl' Ho']].
    destruct (IH (dispatch e a) Hp' Hl' Hes) as [H1 [H2 H3]].
    repeat split; [exact H1 | exact H2 | now rewrite H3].
Qed.

Lemma awaiting_survives_user_events_witness :
  isLoading
    (state (run [ ClickGenerateRules; ClickBack; ChangeOperation "Schema";
                  ClickCreatePrompt; ClickGenerateRules ] fetchingApp)) = true
  /\ observed (run [ ClickGenerateRules; ClickBack; ChangeOperation "Schema";
                     ClickCreatePrompt; ClickGenerateRules ] fetchingApp)
     = observed fetchingApp.
Proof.
  destruct (awaiting_survives_user_events fetchingApp
              (generateContentRequest (generatedPrompt (state fetchingApp)))
              [ ClickGenerateRules; ClickBack; ChangeOperation "Schema";
                ClickCreatePrompt; ClickGenerateRules ]
              eq_refl eq_refl eq_refl) as [_ [Hl Ho]].
  split; [exact Hl | exact Ho].
Defined.

(** X9.  A response that arrives late is stored all the same: after any
    user events since the request was sent, the parsed value becomes the
    rule list and the loading ends, while the page and the prompt of that
    moment stay, even when the prompt is no longer the one the request
    was built from. *)
Theorem late_response_is_stored (a : App) (r : GenerateContentParameters)
        (es : list Event) (v : JSValue) :
  pending a = [r] ->
  isLoading (state a) = true ->
  forallb (fun e => negb (isSettle e)) es = true ->
  let a' := dispatch (Settle (Parsed v)) (run es a) in
  rules (state a') = v
  /\ isLoading (state a') = false
  /\ pending a' = []
  /\ page (state a') = page (state (run es a))
  /\ generatedPrompt (state a') = generatedPrompt (state (run es a)).
Proof.
  intros Hp Hl Hes a'. subst a'.
  destruct (awaiting_survives_user_events a r es Hp Hl Hes) as [Hp' _].
  rewrite dispatch_Settle. unfold settle. rewrite Hp'. repeat split.
Qed.

Lemma late_response_is_stored_witness :
  rules (state (dispatch (Settle (Parsed exampleRules))
                         (run [ ChangePrompt "another prompt" ] fetchingApp)))
  = exampleRules
  /\ generatedPrompt (state (dispatch (Settle (Parsed exampleRules))
                                      (run [ ChangePrompt "another prompt" ] fetchingApp)))
     = "another prompt".
Proof.
  destruct (late_response_is_stored fetchingApp
              (generateContentRequest (generatedPrompt (state fetchingApp)))
              [ ChangePrompt "another prompt" ] exampleRules eq_refl eq_refl eq_refl)
    as [Hr [_ [_ [_ Hg]]]].
  split; [exact Hr | rewrite Hg; reflexivity].
Defined.



(** * The rules table and the copy buttons *)







(** * The response schema and the [Rule] interface *)

Lemma conforms_item_asRule (it : Schema) (x : JSValue) :
  rulesSchema = TypeARRAY it ->
  (conforms it x = true <-> exists rule, asRule x = Some rule).
Proof.
  intros E. injection E as <-.
  destruct x as [| b | n | s | items | fields];
    try (split; [discriminate | intros [rule H]; discriminate]).
  unfold asRule, asRuleType, asString. simpl conforms.
  rewrite !andb_true_iff.
  destruct (property "ruleName" fields) as [[| b1 | n1 | s1 | l1 | f1]|]; simpl;
    try (split; [intuition discriminate | intros [rule H]; discriminate]).
  destruct (property "description" fields) as [[| b2 | n2 | s2 | l2 | f2]|]; simpl;
    try (split; [intuition discriminate | intros [rule H]; discriminate]).
  destruct (property "ruleType" fields) as [[| b3 | n3 | s3 | l3 | f3]|]; simpl;
    try (split; [intuition discriminate | intros [rule H]; discriminate]).
  destruct (String.eqb s3 "Business") eqn:EB; simpl;
    [|destruct (String.eqb s3 "Technical") eqn:ET; simpl;
      [|split; [intuition discriminate | intros [rule H]; discriminate]]];
    (destruct (property "codeSnippet" fields) as [[| b4 | n4 | s4 | l4 | f4]|]; simpl;
     try (split; [intuition discriminate | intros [rule H]; discriminate]);
     (split; [intros _; eexists; reflexivity | intros _; repeat split])).
Qed.

Lemma conforms_items_asRuleList (it : Schema) (items : list JSValue) :
  rulesSchema = TypeARRAY it ->
  (forallb (conforms it) items = true
   <-> exists rules, asRuleList items = Some rules
                     /\ List.length rules = List.length items).
Proof.
  intros E. induction items as [|x items IH]; simpl.
  - split; [intros _; now exists [] | reflexivity].
  - rewrite andb_true_iff, IH, (conforms_item_asRule it x E). split.
    + intros [[rule ->] [rules [-> Hlen]]]. exists (rule :: rules). simpl. now rewrite Hlen.
    + intros [rules [H Hlen]]. destruct (asRule x) as [rule|]; [|discriminate].
      destruct (asRuleList items) as [rules'|]; [|discriminate].
      injection H as <-. split; [now exists rule|]. exists rules'. split; [reflexivity|].
      simpl in Hlen. now injection Hlen.
Qed.

(** X13.  The response schema sent to the service and the [Rule]
    interface agree: a parsed value conforms to the schema exactly when
    it reads as a list of rules at the interface type, and that list has
    one rule per array item. *)
Theorem schema_matches_interface (v : JSValue) :
  conforms rulesSchema v = true
  <-> exists items rules, v = JArray items /\ asRules v = Some rules
                          /\ List.length rules = List.length items.
Proof.
  destruct v as [| b | n | s | items | fields];
    try (split; [discriminate | intros [items [rules [H _]]]; discriminate]).
  change (conforms rulesSchema (JArray items))
    with (forallb (conforms match rulesSchema with
                            | TypeARRAY it => it
                            | _ => rulesSchema
                            end) items).
  rewrite conforms_items_asRuleList by reflexivity. split.
  - intros [rules [H Hlen]]. now exists items, rules.
  - intros [items' [rules [E [H Hlen]]]]. injection E as <-. now exists rules.
Qed.

Lemma schema_matches_interface_witness :
  asRules exampleRules = Some [ businessRule ].
Proof.
  destruct (proj1 (schema_matches_interface exampleRules) eq_refl)
    as [items [rules [_ [H _]]]].
  reflexivity.
Defined.

(** * The dropdowns *)

Lemma selectableValues_Dropdown (label value : string) (options : list string)
      (placeholder : string) :
  selectableValues (Dropdown label value options placeholder) = options.
Proof.
  unfold selectableValues, Dropdown. cbn [selectOptions filter optionDisabled negb].
  induction options as [|o options IH]; simpl; [reflexivity | now rewrite IH].
Qed.

(** X14.  A dropdown offers the placeholder first, disabled and with the
    empty value, and then one enabled option per entry of its list, so
    the values a user can choose are exactly the entries of the list, in
    their order; with an empty list only the placeholder is left. *)
Theorem dropdown_offers_its_options (label value : string) (options : list string)
        (placeholder : string) :
  let d := Dropdown label value options placeholder in
  hd_error (selectOptions d) = Some (mkOption EmptyString true placeholder)
  /\ List.length (selectOptions d) = S (List.length options)
  /\ selectableValues d = options
  /\ (options = [] -> selectOptions d = [ mkOption EmptyString true placeholder ]).
Proof.
  cbv zeta. split; [reflexivity|]. split; [simpl; now rewrite length_map|].
  split; [apply selectableValues_Dropdown|]. now intros ->.
Qed.

Lemma dropdown_offers_its_options_witness :
  selectOptions (Dropdown "Domain" EmptyString [] "Select a Domain")
  = [ mkOption EmptyString true "Select a Domain" ].
Proof.
  destruct (dropdown_offers_its_options "Domain" EmptyString [] "Select a Domain")
    as [_ [_ [_ H]]].
  exact (H eq_refl).
Defined.

Lemma handleCreatePrompt_selection (st : State) :
  application (handleCreatePrompt st) = application st
  /\ operation (handleCreatePrompt st) = operation st
  /\ domain (handleCreatePrompt st) = domain st
  /\ department (handleCreatePrompt st) = department st.
Proof.
  destruct (isFormIncomplete st) eqn:E.
  - rewrite (handleCreatePrompt_incomplete st E). repeat split.
  - rewrite (handleCreatePrompt_complete st E). repeat split.
Qed.

Lemma selection_kept_dispatch (APPLICATIONS OPERATIONS DOMAINS DEPARTMENTS : list string)
      (e : Event) (a : App) :
  ~ In EmptyString APPLICATIONS -> ~ In EmptyString OPERATIONS ->
  ~ In EmptyString DOMAINS -> ~ In EmptyString DEPARTMENTS ->
  Deliverable APPLICATIONS OPERATIONS DOMAINS DEPARTMENTS a e ->
  (application (state a) <> EmptyString -> application (state (dispatch e a)) <> EmptyString)
  /\ (operation (state a) <> EmptyString -> operation (state (dispatch e a)) <> EmptyString)
  /\ (domain (state a) <> EmptyString -> domain (state (dispatch e a)) <> EmptyString)
  /\ (department (state a) <> EmptyString
      -> department (state (dispatch e a)) <> EmptyString).
Proof.
  intros Ha Ho Hd Hp Hdel.
  destruct e; unfold Deliverable in Hdel; try rewrite selectableValues_Dropdown in Hdel;
    unfold dispatch; destruct (page (state a)); try (repeat split; intros H; exact H).
  - repeat split; try (intros H; exact H). intros _ E. cbn in E. subst. contradiction.
  - repeat split; try (intros H; exact H). intros _ E. cbn in E. subst. contradiction.
  - repeat split; try (intros H; exact H). intros _ E. cbn in E. subst. contradiction.
  - repeat split; try (intros H; exact H). intros _ E. cbn in E. subst. contradiction.
  - unfold Button. destruct (createPromptDisabled (state a));
      [repeat split; intros H; exact H|].
    unfold onState. cbn [state].
    destruct (handleCreatePrompt_selection (state a)) as [E1 [E2 [E3 E4]]].
    rewrite E1, E2, E3, E4. repeat split; intros H; exact H.
  - unfold Button. destruct (generateRulesDisabled (state a));
      repeat split; intros H; exact H.
  - unfold settle. destruct (pending a); [repeat split; intros H; exact H|].
    destruct o; repeat split; intros H; exact H.
  - unfold settle. destruct (pending a); [repeat split; intros H; exact H|].
    destruct o; repeat split; intros H; exact H.
Qed.

(** X15.  If none of the four option lists contains the empty string,
    then along any events the rendered controls can deliver a selection
    field that has a value keeps having one: there is no way to unset it,
    and a complete form stays complete. *)
Theorem selection_cannot_be_unset
        (APPLICATIONS OPERATIONS DOMAINS DEPARTMENTS : list string)
        (es : list Event) (a : App) :
  ~ In EmptyString APPLICATIONS -> ~ In EmptyString OPERATIONS ->
  ~ In EmptyString DOMAINS -> ~ In EmptyString DEPARTMENTS ->
  DeliverableRun APPLICATIONS OPERATIONS DOMAINS DEPARTMENTS es a ->
  (application (state a) <> EmptyString -> application (state (run es a)) <> EmptyString)
  /\ (operation (state a) <> EmptyString -> operation (state (run es a)) <> EmptyString)
  /\ (domain (state a) <> EmptyString -> domain (state (run es a)) <> EmptyString)
  /\ (department (state a) <> EmptyString -> department (state (run es a)) <> EmptyString)
  /\ (isFormIncomplete (state a) = false -> isFormIncomplete (state (run es a)) = false).
Proof.
  intros Ha Ho Hd Hp Hrun.
  assert (Hfields :
    (application (state a) <> EmptyString -> application (state (run es a)) <> EmptyString)
    /\ (operation (state a) <> EmptyString -> operation (state (run es a)) <> EmptyString)
    /\ (domain (state a) <> EmptyString -> domain (state (run es a)) <> EmptyString)
    /\ (department (state a) <> EmptyString
        -> department (state (run es a)) <> EmptyString)).
  { revert a Hrun. induction es as [|e es IH]; intros a Hrun; simpl.
    - repeat split; intros H; exact H.
    - destruct Hrun as [Hdel Hrun].
      destruct (selection_kept_dispatch _ _ _ _ e a Ha Ho Hd Hp Hdel) as [S1 [S2 [S3 S4]]].
      destruct (IH (dispatch e a) Hrun) as [R1 [R2 [R3 R4]]].
      repeat split; intros H; auto. }
  destruct Hfields as [F1 [F2 [F3 F4]]].
  repeat split; try assumption.
  intros Hc. apply isFormIncomplete_false in Hc as [C1 [C2 [C3 C4]]].
  apply isFormIncomplete_false. repeat split; auto.
Qed.

Lemma selection_cannot_be_unset_witness :
  application
    (state (run [ ChangeApplication "Finance"; ClickCreatePrompt; ClickBack ]
                (mkApp exampleSelection [] []))) <> EmptyString.
Proof.
  assert (Hno : ~ In EmptyString sampleOptions).
  { intros [H | [H | []]]; discriminate. }
  assert (Hrun : DeliverableRun sampleOptions sampleOptions sampleOptions sampleOptions
                   [ ChangeApplication "Finance"; ClickCreatePrompt; ClickBack ]
                   (mkApp exampleSelection [] [])).
  { split; [right; left; reflexivity|]. split; [exact I|]. split; exact I. }
  destruct (selection_cannot_be_unset sampleOptions sampleOptions sampleOptions sampleOptions
              [ ChangeApplication "Finance"; ClickCreatePrompt; ClickBack ]
              (mkApp exampleSelection [] []) Hno Hno Hno Hno Hrun) as [H _].
  apply H. discriminate.
Defined.

(** * One request at a time *)

Lemma observed_balance_dispatch (e : Event) (a : App) :
  List.length (observed (dispatch e a)) + List.length (pending a)
  <= List.length (observed a) + List.length (pending (dispatch e a))
     + (if isSettle e then 1 else 0).
Proof.
  destruct e; unfold dispatch; destruct (page (state a)); cbn [isSettle];
    try (cbn [onState observed pending]; lia).
  - unfold Button. destruct (createPromptDisabled (state a));
      cbn [onState observed pending]; lia.
  - unfold Button. destruct (generateRulesDisabled (state a)); [lia|].
    unfold handleGenerateRules. cbn [handleGenerateRules_call observed pending].
    rewrite !length_app. simpl. lia.
  - unfold settle. destruct (pending a); cbn [observed pending List.length]; lia.
  - unfold settle. destruct (pending a); cbn [observed pending List.length]; lia.
Qed.

Lemma observed_balance_run (es : list Event) (a : App) :
  List.length (observed (run es a)) + List.length (pending a)
  <= List.length (observed a) + List.length (pending (run es a))
     + List.length (filter isSettle es).
Proof.
  revert a. induction es as [|e es IH]; intros a; simpl; [lia|].
  pose proof (observed_balance_dispatch e a) as Hstep.
  pose proof (IH (dispatch e a)) as Hrest.
  destruct (isSettle e); simpl; lia.
Qed.

(** X16.  Requests go out one at a time: after any events, the service
    has seen at most one request more than the number of settlements, so
    clicking cannot send a second request before the first is answered. *)
Theorem requests_are_sent_one_at_a_time (es : list Event) :
  List.length (observed (run es initialApp)) <= S (List.length (filter isSettle es)).
Proof.
  pose proof (observed_balance_run es initialApp) as H. simpl in H.
  assert (Hp : List.length (pending (run es initialApp)) <= 1).
  { destruct (Reachable_Invariant _ (Reachable_run es)) as [[Hp _] | [[r Hp] _]];
      rewrite Hp; simpl; lia. }
  lia.
Qed.
